(** * FckNatSpotInstanceAspect: a shallow embedding of
  [src/aspects/spot-instance-aspect.ts]

The aspect visits one construct at a time.  When the construct is the
auto scaling group that fck-nat creates, it replaces the launch template
of the underlying CloudFormation resource by a mixed instances policy
that asks for spot capacity only.

The file has three parts:
- [Js]: the few JavaScript notions the source relies on (truthiness,
  nullish values, [TypeError]);
- the slice of [constructs] and [aws-cdk-lib] the source calls, one module
  per CDK type, with the rendering of a resource's properties;
- [FckNatSpotInstanceAspect]: the class itself, method by method, in a
  small state and exception monad that records every write. *)

From stdpp Require Import base strings gmap list option.

Open Scope string_scope.
Open Scope Z_scope.

(* ================================================================= *)
(** ** JavaScript *)

Module Js.

(** The only exception the source can raise is the one JavaScript raises
    when a property is read from [undefined]. *)
Inductive Error :=
| TypeError (message : string).

(** A value found by [(parent as any).instanceType].  A value that is
    neither [undefined] nor [null] is represented by the string its
    [toString()] returns; for an [ec2.InstanceType] that is the instance
    type identifier, for a string it is the string itself.  Values whose
    [toString] is missing or itself throws are outside the model. *)
Inductive Value :=
| undefined
| null
| stringifiable (str : string).

(** [!!s] for a string: every string but the empty one is truthy. *)
Definition truthy (s : string) : bool :=
  match s with
  | EmptyString => false
  | String _ _ => true
  end.

(** [v?.toString()]. *)
Definition optional_toString (v : Value) : option string :=
  match v with
  | undefined | null => None
  | stringifiable s => Some s
  end.

(** Truthiness of a value of type [string | undefined]. *)
Definition truthy_opt (o : option string) : bool :=
  match o with
  | None => false
  | Some s => truthy s
  end.

End Js.

(* ================================================================= *)
(** ** CDK *)

(** [CfnAutoScalingGroup.LaunchTemplateSpecificationProperty] *)
Module LaunchTemplateSpecificationProperty.
Record t := mk {
    launchTemplateId : option string;
    launchTemplateName : option string;
    version : string;
  }.
End LaunchTemplateSpecificationProperty.

(** [CfnAutoScalingGroup.LaunchTemplateOverridesProperty] *)
Module LaunchTemplateOverridesProperty.
Record t := mk {
    instanceType : option string;
  }.
End LaunchTemplateOverridesProperty.

(** [CfnAutoScalingGroup.LaunchTemplateProperty] *)
Module LaunchTemplateProperty.
Record t := mk {
    launchTemplateSpecification : LaunchTemplateSpecificationProperty.t;
    overrides : option (list LaunchTemplateOverridesProperty.t);
  }.
End LaunchTemplateProperty.

(** [CfnAutoScalingGroup.InstancesDistributionProperty], with the three
    keys the aspect writes. *)
Module InstancesDistributionProperty.
Record t := mk {
    onDemandPercentageAboveBaseCapacity : option Z;
    spotAllocationStrategy : option string;
    spotMaxPrice : option string;
  }.
End InstancesDistributionProperty.

(** [CfnAutoScalingGroup.MixedInstancesPolicyProperty] *)
Module MixedInstancesPolicyProperty.
Record t := mk {
    launchTemplate : LaunchTemplateProperty.t;
    instancesDistribution : option InstancesDistributionProperty.t;
  }.
End MixedInstancesPolicyProperty.

(** A raw override registered on a CloudFormation resource for a top-level
  property: [addPropertyOverride(p, undefined)] asks for the property to
  be deleted from the synthesized resource, any other value replaces it. *)
Inductive Override :=
| Delete
| Assign (raw : string).

(** What the synthesized template can hold under a property name. *)
Inductive CfnPropertyValue :=
| LaunchTemplateValue (lt : LaunchTemplateSpecificationProperty.t)
| MixedInstancesPolicyValue (p : MixedInstancesPolicyProperty.t)
| RawValue (raw : string).

(** [autoscaling.CfnAutoScalingGroup]: the two declared properties the
  aspect reads or writes, and the overrides kept under
  [rawOverrides.Properties].  The declared properties are plain mutable
  fields; the overrides are only merged in when the resource is
  rendered. *)
Module CfnAutoScalingGroup.

Record t := mk {
    launchTemplate : option LaunchTemplateSpecificationProperty.t;
    mixedInstancesPolicy : option MixedInstancesPolicyProperty.t;
    rawOverrides : gmap string Override;
  }.

(** [cfnAsg.mixedInstancesPolicy = p] *)
Definition set_mixedInstancesPolicy
    (p : MixedInstancesPolicyProperty.t) (r : t) : t :=
  {| launchTemplate := launchTemplate r;
     mixedInstancesPolicy := Some p;
     rawOverrides := rawOverrides r |}.

(** [CfnResource.addPropertyDeletionOverride(propertyPath)], for a path
    without a period: it is [addOverride('Properties.' + path, undefined)],
    which stores the deletion in [rawOverrides] and touches nothing
    else. *)
Definition addPropertyDeletionOverride (propertyPath : string) (r : t) : t :=
  {| launchTemplate := launchTemplate r;
     mixedInstancesPolicy := mixedInstancesPolicy r;
     rawOverrides := <[propertyPath := Delete]> (rawOverrides r) |}.

(** The declared properties under their CloudFormation names. *)
Definition cfnProperties (r : t) : gmap string CfnPropertyValue :=
  let with_lt : gmap string CfnPropertyValue :=
    match launchTemplate r with
    | Some lt => {[ "LaunchTemplate" := LaunchTemplateValue lt ]}
    | None => ∅
    end in
  match mixedInstancesPolicy r with
  | Some p => <["MixedInstancesPolicy" := MixedInstancesPolicyValue p]> with_lt
  | None => with_lt
  end.

(** One key of the merge of the overrides into the declared properties. *)
Definition applyOverride
    (o : option Override) (declared : option CfnPropertyValue)
  : option CfnPropertyValue :=
  match o with
  | Some Delete => None
  | Some (Assign raw) => Some (RawValue raw)
  | None => declared
  end.

(** The [Properties] of the resource as synthesis emits them: the
    declared properties with the raw overrides merged on top.  This is the
    property bag the template synthesizer sees. *)
Definition renderProperties (r : t) : gmap string CfnPropertyValue :=
  merge applyOverride (rawOverrides r) (cfnProperties r).

End CfnAutoScalingGroup.

(** What [node.defaultChild] holds when it holds something: the
    CloudFormation resource of the group, which is what the cast of line 67
    takes it to be, or a construct of another kind.  Of the latter the
    aspect only ever reads [launchTemplate]; the model covers the constructs
    that have no such property (a bucket, a plain construct), and leaves out
    the constructs of another kind that do have one. *)
Inductive DefaultChild :=
| cfnAutoScalingGroup (r : CfnAutoScalingGroup.t)
| otherKind (className : string).

(** One entry of [node.metadata]. *)
Module MetadataEntry.
Record t := mk {
    type : string;
    data : string;
  }.
End MetadataEntry.

(** The scope (parent) of a construct, seen as the loosely typed object the
    aspect probes: [instanceType_slot] is [None] when
    ['instanceType' in parent] is false, and holds the property's value
    otherwise. *)
Module Scope.
Record t := mk {
    instanceType_slot : option Js.Value;
  }.
End Scope.

(** [constructs.Node], the [.node] of a construct. *)
Module Node.

Record t := mk {
    id : string;
    path : string;
    scope : option Scope.t;
    defaultChild : option DefaultChild;
    metadata : list MetadataEntry.t;
  }.

Definition set_defaultChild (c : option DefaultChild) (n : t) : t :=
  {| id := id n; path := path n; scope := scope n;
     defaultChild := c; metadata := metadata n |}.

(** [node.addMetadata(type, data)] appends an entry. *)
Definition addMetadata (type data : string) (n : t) : t :=
  {| id := id n; path := path n; scope := scope n;
     defaultChild := defaultChild n;
     metadata := metadata n ++ [MetadataEntry.mk type data] |}.

End Node.

(** The class a construct is an instance of, as far as
  [instanceof autoscaling.AutoScalingGroup] can tell. *)
Inductive ConstructClass :=
| AutoScalingGroup
| OtherConstruct (className : string).

(** [IConstruct] *)
Module IConstruct.
Record t := mk {
    class : ConstructClass;
    node : Node.t;
  }.

Definition instanceof_AutoScalingGroup (c : t) : bool :=
  match class c with
  | AutoScalingGroup => true
  | OtherConstruct _ => false
  end.

Definition set_node (n : Node.t) (c : t) : t :=
  {| class := class c; node := n |}.
End IConstruct.

(** [console]: the level and the text of every line printed. *)
Inductive ConsoleLevel := LevelLog | LevelWarn | LevelError.

(* ================================================================= *)
(** ** The world a call runs in, and the monad of the methods *)

(** The visited construct is a mutable object and the console is a global:
    both are threaded through every call. *)
Record World := mkWorld {
  construct : IConstruct.t;
  console : list (ConsoleLevel * string);
}.

Inductive Completion (A : Type) :=
| Normal (a : A)
| Throw (e : Js.Error).
Arguments Normal {A} a.
Arguments Throw {A} e.

(** The result of running a method: how it completed, the world it left,
    and the successive worlds after each of its writes, in order. *)
Record Run (A : Type) := mkRun {
  completion : Completion A;
  final : World;
  writes : list World;
}.
Arguments mkRun {A}.
Arguments completion {A}.
Arguments final {A}.
Arguments writes {A}.

Definition M (A : Type) : Type := World -> Run A.

Definition ret {A} (a : A) : M A :=
  fun w => mkRun (Normal a) w [].

Definition throw {A} (e : Js.Error) : M A :=
  fun w => mkRun (Throw e) w [].

Definition bind {A B} (m : M A) (k : A -> M B) : M B :=
  fun w =>
    let r := m w in
    match completion r with
    | Throw e => mkRun (Throw e) (final r) (writes r)
    | Normal a =>
        let r' := k a (final r) in
        mkRun (completion r') (final r') (writes r ++ writes r')
    end.

(** Read something off the world. *)
Definition gets {A} (f : World -> A) : M A :=
  fun w => mkRun (Normal (f w)) w [].

(** One write. *)
Definition modify (f : World -> World) : M unit :=
  fun w => mkRun (Normal tt) (f w) [f w].

Declare Scope js_scope.
Delimit Scope js_scope with js.
Notation "x <- m ;; k" := (bind m (fun x => k))
  (at level 100, m at next level, right associativity) : js_scope.
Notation "m ;;; k" := (bind m (fun _ => k))
  (at level 100, right associativity) : js_scope.
Open Scope js_scope.

(** *** The primitive effects the aspect performs *)

(** The world after [console.warn(message)]. *)
Definition with_warning (message : string) (w : World) : World :=
  mkWorld (construct w) (console w ++ [(LevelWarn, message)]).

(** [console.warn(message)] *)
Definition console_warn (message : string) : M unit :=
  modify (with_warning message).

(** The world in which [asg.node.defaultChild] is the resource [r]. *)
Definition with_cfnAsg (r : CfnAutoScalingGroup.t) (w : World) : World :=
  let c := construct w in
  mkWorld
    (IConstruct.set_node
       (Node.set_defaultChild (Some (cfnAutoScalingGroup r))
          (IConstruct.node c)) c)
    (console w).

(** A write through the reference [cfnAsg], which aliases
    [asg.node.defaultChild]: the resource is replaced by [f] of itself.
    Calling a method or setting a property on [undefined] is a
    [TypeError].  On a construct of another kind the aspect never writes
    (it has found no launch template and returned); the model gives that
    case the error of a call to a missing method. *)
Definition update_cfnAsg (f : CfnAutoScalingGroup.t -> CfnAutoScalingGroup.t)
  : M unit :=
  cfnAsg <- gets (fun w => Node.defaultChild (IConstruct.node (construct w))) ;;
  match cfnAsg with
  | Some (cfnAutoScalingGroup r) => modify (with_cfnAsg (f r))
  | Some (otherKind _) =>
      throw (Js.TypeError "cfnAsg.addPropertyDeletionOverride is not a function")
  | None =>
      throw (Js.TypeError "Cannot read properties of undefined")
  end.

(** The world after [asg.node.addMetadata(type, data)]. *)
Definition with_metadata (type data : string) (w : World) : World :=
  let c := construct w in
  mkWorld
    (IConstruct.set_node (Node.addMetadata type data (IConstruct.node c)) c)
    (console w).

(** [asg.node.addMetadata(type, data)] *)
Definition node_addMetadata (type data : string) : M unit :=
  modify (with_metadata type data).

(* ================================================================= *)
(** ** The aspect *)

(** The union type of [spotAllocationStrategy] and its string literals. *)
Inductive SpotAllocationStrategy :=
| LowestPrice
| CapacityOptimized
| CapacityOptimizedPrioritized.

Definition SpotAllocationStrategy_literal (s : SpotAllocationStrategy)
  : string :=
  match s with
  | LowestPrice => "lowest-price"
  | CapacityOptimized => "capacity-optimized"
  | CapacityOptimizedPrioritized => "capacity-optimized-prioritized"
  end.

(** [FckNatSpotInstanceAspectProps]; both members are optional.  The
    compiler holds [spotAllocationStrategy] to the three literals above; at
    run time it is a string like any other, and the aspect does not look
    at it. *)
Module FckNatSpotInstanceAspectProps.
Record t := mk {
    spotMaxPrice : option string;
    spotAllocationStrategy : option string;
  }.

(** The default of the constructor, [{}]. *)
Definition empty : t := mk None None.
End FckNatSpotInstanceAspectProps.

(** [convertToSpotInstance] returns [void] through two [return] paths; the
  outcome says which one was taken: the early [return] after the warning,
  or the end of the method (then with the policy that was installed). *)
Inductive SkipReason :=
| no_launch_template_found.

Inductive RewriteOutcome :=
| mutated (policy : MixedInstancesPolicyProperty.t)
| skipped (reason : SkipReason).

Module FckNatSpotInstanceAspect.

Import FckNatSpotInstanceAspectProps.

Section WithProps.

(** [this.props] *)
Variable props : FckNatSpotInstanceAspectProps.t.

(** [getInstanceTypeFromAsg(asg)]: a read of [asg.node.scope]. *)
Definition getInstanceTypeFromAsg (asg : IConstruct.t) : option string :=
  let parent := Node.scope (IConstruct.node asg) in
  match parent with
  | Some parent =>
      match Scope.instanceType_slot parent with
      | Some instanceType => Js.optional_toString instanceType
      | None => None
      end
  | None => None
  end.

(** [cfnAsg.launchTemplate], where [cfnAsg] may be [undefined] or a
    construct of another kind at run time in spite of the cast. *)
Definition read_launchTemplate (cfnAsg : option DefaultChild)
  : M (option LaunchTemplateSpecificationProperty.t) :=
  match cfnAsg with
  | Some (cfnAutoScalingGroup r) => ret (CfnAutoScalingGroup.launchTemplate r)
  | Some (otherKind _) => ret None
  | None =>
      throw (Js.TypeError
        "Cannot read properties of undefined (reading 'launchTemplate')")
  end.

(** [this.props.spotAllocationStrategy ?? 'capacity-optimized'] *)
Definition resolve_allocationStrategy : string :=
  match spotAllocationStrategy props with
  | Some s => s
  | None => "capacity-optimized"
  end.

(** The object literal of lines 90-105. *)
Definition build_mixedInstancesPolicy
    (launchTemplate : LaunchTemplateSpecificationProperty.t)
    (instanceType : option string)
    (allocationStrategy : string) : MixedInstancesPolicyProperty.t :=
  {| MixedInstancesPolicyProperty.launchTemplate :=
       {| LaunchTemplateProperty.launchTemplateSpecification :=
            {| LaunchTemplateSpecificationProperty.launchTemplateId :=
                 LaunchTemplateSpecificationProperty.launchTemplateId
                   launchTemplate;
               LaunchTemplateSpecificationProperty.launchTemplateName :=
                 None;
               LaunchTemplateSpecificationProperty.version :=
                 LaunchTemplateSpecificationProperty.version
                   launchTemplate |};
          LaunchTemplateProperty.overrides :=
            if Js.truthy_opt instanceType
            then Some [ LaunchTemplateOverridesProperty.mk instanceType ]
            else None |};
     MixedInstancesPolicyProperty.instancesDistribution :=
       Some
         {| InstancesDistributionProperty.onDemandPercentageAboveBaseCapacity :=
              Some 0;
            InstancesDistributionProperty.spotAllocationStrategy :=
              Some allocationStrategy;
            InstancesDistributionProperty.spotMaxPrice :=
              if Js.truthy_opt (spotMaxPrice props)
              then spotMaxPrice props
              else None |} |}.

(** [convertToSpotInstance(asg)], with [asg] the construct of the
    world. *)
Definition convertToSpotInstance : M RewriteOutcome :=
  asg <- gets construct ;;
  let cfnAsg := Node.defaultChild (IConstruct.node asg) in
  launchTemplate <- read_launchTemplate cfnAsg ;;
  match launchTemplate with
  | None =>
      console_warn
        ("FckNatSpotInstanceAspect: Could not find launch template for ASG "
           +:+ Node.path (IConstruct.node asg)) ;;;
      ret (skipped no_launch_template_found)
  | Some launchTemplate =>
      let instanceType := getInstanceTypeFromAsg asg in
      update_cfnAsg
        (CfnAutoScalingGroup.addPropertyDeletionOverride "LaunchTemplate") ;;;
      let allocationStrategy := resolve_allocationStrategy in
      let mixedInstancesPolicy :=
        build_mixedInstancesPolicy
          launchTemplate instanceType allocationStrategy in
      update_cfnAsg
        (CfnAutoScalingGroup.set_mixedInstancesPolicy mixedInstancesPolicy) ;;;
      node_addMetadata "fck-nat:spot-enabled" "true" ;;;
      ret (mutated mixedInstancesPolicy)
  end.

(** [visit(node)], with [node] the construct of the world. *)
Definition visit : M unit :=
  node <- gets construct ;;
  if IConstruct.instanceof_AutoScalingGroup node then
    if String.eqb (Node.id (IConstruct.node node)) "FckNatAsg" then
      convertToSpotInstance ;;; ret tt
    else ret tt
  else ret tt.

End WithProps.

End FckNatSpotInstanceAspect.


Import FckNatSpotInstanceAspect.

(* ================================================================= *)
(** ** Observations *)

(** The default child of the visited construct. *)
Definition defaultChild_of (w : World) : option DefaultChild :=
  Node.defaultChild (IConstruct.node (construct w)).

(** The CloudFormation resource behind the visited construct, when its
    default child is one. *)
Definition cfnAsg_of (w : World) : option CfnAutoScalingGroup.t :=
  match defaultChild_of w with
  | Some (cfnAutoScalingGroup r) => Some r
  | Some (otherKind _) | None => None
  end.

(** The launch template fragment of the visited construct: what
    [cfnAsg.launchTemplate] finds when the default child is there. *)
Definition declared_launchTemplate (w : World)
  : option LaunchTemplateSpecificationProperty.t :=
  match defaultChild_of w with
  | Some (cfnAutoScalingGroup r) => CfnAutoScalingGroup.launchTemplate r
  | Some (otherKind _) | None => None
  end.

(** The property bag of the visited construct: the properties of its
    resource as they are rendered (empty when it has no resource). *)
Definition propertyBag (w : World) : gmap string CfnPropertyValue :=
  match cfnAsg_of w with
  | Some r => CfnAutoScalingGroup.renderProperties r
  | None => ∅
  end.

(** Both shapes of the launch configuration at once. *)
Definition both_present (w : World) : Prop :=
  is_Some (propertyBag w !! "LaunchTemplate") ∧
  is_Some (propertyBag w !! "MixedInstancesPolicy").

(** The worlds a reader can find the construct in during or after a run:
    the one left by each write, and the final one. *)
Definition observable {A} (run : Run A) (w' : World) : Prop :=
  w' ∈ writes run ∨ w' = final run.

(** The condition [visit] tests before it delegates. *)
Definition matched (w : World) : Prop :=
  IConstruct.class (construct w) = AutoScalingGroup ∧
  Node.id (IConstruct.node (construct w)) = "FckNatAsg".

#[global] Instance ConstructClass_eq_dec : EqDecision ConstructClass.
Proof. solve_decision. Defined.

#[global] Instance matched_dec (w : World) : Decision (matched w).
Proof. unfold matched. apply _. Defined.

(** The marker the aspect leaves on a converted group. *)
Definition spot_marker : MetadataEntry.t :=
  MetadataEntry.mk "fck-nat:spot-enabled" "true".

(** The line the aspect prints when it finds no launch template. *)
Definition skip_message (w : World) : string :=
  "FckNatSpotInstanceAspect: Could not find launch template for ASG "
    +:+ Node.path (IConstruct.node (construct w)).

(** The three worlds a conversion writes, in order. *)
Definition after_deletion (w : World) (r : CfnAutoScalingGroup.t) : World :=
  with_cfnAsg (CfnAutoScalingGroup.addPropertyDeletionOverride "LaunchTemplate" r) w.

Definition after_install
    (w : World) (r : CfnAutoScalingGroup.t) (p : MixedInstancesPolicyProperty.t)
  : World :=
  with_cfnAsg
    (CfnAutoScalingGroup.set_mixedInstancesPolicy p
       (CfnAutoScalingGroup.addPropertyDeletionOverride "LaunchTemplate" r))
    w.

Definition after_marker
    (w : World) (r : CfnAutoScalingGroup.t) (p : MixedInstancesPolicyProperty.t)
  : World :=
  with_metadata "fck-nat:spot-enabled" "true" (after_install w r p).

(** The policy a conversion of [w] builds from the launch template [lt]. *)
Definition policy_for
    (props : FckNatSpotInstanceAspectProps.t) (w : World)
    (lt : LaunchTemplateSpecificationProperty.t)
  : MixedInstancesPolicyProperty.t :=
  build_mixedInstancesPolicy props lt
    (getInstanceTypeFromAsg (construct w))
    (resolve_allocationStrategy props).

(* ================================================================= *)
(** ** Sample worlds *)

Definition sample_launchTemplate : LaunchTemplateSpecificationProperty.t :=
  LaunchTemplateSpecificationProperty.mk (Some "lt-0abc") None "1".

(** A resource as the [AutoScalingGroup] construct declares it. *)
Definition sample_cfnAsg : CfnAutoScalingGroup.t :=
  CfnAutoScalingGroup.mk (Some sample_launchTemplate) None ∅.

Definition sample_node
    (id : string) (instanceType_slot : option Js.Value)
    (child : option CfnAutoScalingGroup.t) : Node.t :=
  Node.mk id ("Stack/VPC/PublicSubnet1/" +:+ id)
    (Some (Scope.mk instanceType_slot)) (cfnAutoScalingGroup <$> child) [].

(** The group fck-nat creates, under a parent that exposes [t4g.nano]. *)
Definition fcknat_world : World :=
  mkWorld
    (IConstruct.mk AutoScalingGroup
       (sample_node "FckNatAsg" (Some (Js.stringifiable "t4g.nano"))
          (Some sample_cfnAsg)))
    [].

(** The same group under a subnet, which exposes no instance type. *)
Definition fcknat_world_plain_parent : World :=
  mkWorld
    (IConstruct.mk AutoScalingGroup
       (sample_node "FckNatAsg" None (Some sample_cfnAsg)))
    [].

(** The same group under a parent whose instance type prints as the empty
    string. *)
Definition fcknat_world_empty_type : World :=
  mkWorld
    (IConstruct.mk AutoScalingGroup
       (sample_node "FckNatAsg" (Some (Js.stringifiable ""))
          (Some sample_cfnAsg)))
    [].

(** A group with the sentinel id whose resource declares no launch
    template. *)
Definition fcknat_world_no_template : World :=
  mkWorld
    (IConstruct.mk AutoScalingGroup
       (sample_node "FckNatAsg" None
          (Some (CfnAutoScalingGroup.mk None None ∅))))
    [].

(** A group with the sentinel id and no default child. *)
Definition fcknat_world_no_child : World :=
  mkWorld
    (IConstruct.mk AutoScalingGroup (sample_node "FckNatAsg" None None))
    [].

(** A group with the sentinel id whose default child is a construct of
    another kind. *)
Definition fcknat_world_other_child : World :=
  mkWorld
    (IConstruct.mk AutoScalingGroup
       (Node.mk "FckNatAsg" "Stack/VPC/PublicSubnet1/FckNatAsg"
          (Some (Scope.mk None)) (Some (otherKind "Bucket")) []))
    [].

(** An auto scaling group under another id. *)
Definition other_asg_world : World :=
  mkWorld
    (IConstruct.mk AutoScalingGroup
       (sample_node "WebAsg" (Some (Js.stringifiable "t4g.nano"))
          (Some sample_cfnAsg)))
    [].

(** A construct of another class that happens to carry the sentinel id. *)
Definition other_class_world : World :=
  mkWorld
    (IConstruct.mk (OtherConstruct "Bucket")
       (sample_node "FckNatAsg" None (Some sample_cfnAsg)))
    [].

Definition props_with_price (price : string) : FckNatSpotInstanceAspectProps.t :=
  FckNatSpotInstanceAspectProps.mk (Some price) None.

(** The maximum price of an installed policy, when it has one. *)
Definition policy_spotMaxPrice (p : MixedInstancesPolicyProperty.t)
  : option string :=
  d ← MixedInstancesPolicyProperty.instancesDistribution p;
  InstancesDistributionProperty.spotMaxPrice d.

(** The overrides of an installed policy, when it has some. *)
Definition policy_overrides (p : MixedInstancesPolicyProperty.t)
  : option (list LaunchTemplateOverridesProperty.t) :=
  LaunchTemplateProperty.overrides
    (MixedInstancesPolicyProperty.launchTemplate p).

(** The policy the resource of the visited construct declares. *)
Definition installed_policy (w : World)
  : option MixedInstancesPolicyProperty.t :=
  r ← cfnAsg_of w; CfnAutoScalingGroup.mixedInstancesPolicy r.

(** The share of on-demand capacity an installed policy asks for. *)
Definition policy_onDemandPercentage (p : MixedInstancesPolicyProperty.t)
  : option Z :=
  d ← MixedInstancesPolicyProperty.instancesDistribution p;
  InstancesDistributionProperty.onDemandPercentageAboveBaseCapacity d.

(** The scope of the visited construct. *)
Definition parent_of (w : World) : option Scope.t :=
  Node.scope (IConstruct.node (construct w)).

(** The launch template an installed policy refers to. *)
Definition policy_specification (p : MixedInstancesPolicyProperty.t)
  : LaunchTemplateSpecificationProperty.t :=
  LaunchTemplateProperty.launchTemplateSpecification
    (MixedInstancesPolicyProperty.launchTemplate p).

(** The allocation strategy of an installed policy. *)
Definition policy_spotAllocationStrategy (p : MixedInstancesPolicyProperty.t)
  : option string :=
  d ← MixedInstancesPolicyProperty.instancesDistribution p;
  InstancesDistributionProperty.spotAllocationStrategy d.

(** The metadata of the visited construct. *)
Definition metadata_of (w : World) : list MetadataEntry.t :=
  Node.metadata (IConstruct.node (construct w)).

(** A visit of [w] reaches the end of [convertToSpotInstance]: the node
    passes both tests of [visit] and its resource declares a launch
    template. *)
Definition converts (w : World) : Prop :=
  matched w ∧
  ∃ r lt, cfnAsg_of w = Some r ∧
          CfnAutoScalingGroup.launchTemplate r = Some lt.

(** A visit of [w] takes the early [return] of [convertToSpotInstance]:
    the node passes both tests of [visit], its default child is there, and
    no launch template is found on it. *)
Definition skips (w : World) : Prop :=
  matched w ∧
  is_Some (defaultChild_of w) ∧
  declared_launchTemplate w = None.

(** The world after [n] visits in a row with the same props, as when the
    aspect is applied [n] times. *)
Fixpoint visits
    (props : FckNatSpotInstanceAspectProps.t) (n : nat) (w : World) : World :=
  match n with
  | O => w
  | S n => final (visit props (visits props n w))
  end.

Definition props_with_strategy (s : SpotAllocationStrategy)
  : FckNatSpotInstanceAspectProps.t :=
  FckNatSpotInstanceAspectProps.mk None (Some (SpotAllocationStrategy_literal s)).

(** A launch template referred to by name rather than by id. *)
Definition named_launchTemplate : LaunchTemplateSpecificationProperty.t :=
  LaunchTemplateSpecificationProperty.mk None (Some "fck-nat-template") "2".

(** A resource that refers to its template by name, already declares a
    policy of its own, and carries foreign overrides. *)
Definition busy_cfnAsg : CfnAutoScalingGroup.t :=
  CfnAutoScalingGroup.mk
    (Some named_launchTemplate)
    (Some (MixedInstancesPolicyProperty.mk
             (LaunchTemplateProperty.mk sample_launchTemplate None)
             None))
    (<["MixedInstancesPolicy" := Delete]> (<["MaxSize" := Assign "3"]> ∅)).

(** The fck-nat group over that resource. *)
Definition fcknat_world_busy : World :=
  mkWorld
    (IConstruct.mk AutoScalingGroup
       (Node.mk "FckNatAsg" "Stack/VPC/PublicSubnet2/FckNatAsg"
          (Some (Scope.mk (Some (Js.stringifiable "t4g.micro"))))
          (Some (cfnAutoScalingGroup busy_cfnAsg))
          [MetadataEntry.mk "aws:cdk:path" "Stack/VPC/PublicSubnet2/FckNatAsg"]))
    [(LevelLog, "synth")].

(* ================================================================= *)
(** ** How the two methods run *)

Lemma run_eta {A} (r : Run A) :
  mkRun (completion r) (final r) (writes r) = r.
Proof. destruct r; reflexivity. Qed.

(** A read changes nothing and writes nothing. *)
Lemma bind_gets {A B} (f : World → A) (k : A → M B) (w : World) :
  bind (gets f) k w = k (f w) w.
Proof. unfold bind, gets. simpl. apply run_eta. Qed.

(** The resource is the default child, when there is a resource. *)
Lemma cfnAsg_of_Some w r :
  cfnAsg_of w = Some r → defaultChild_of w = Some (cfnAutoScalingGroup r).
Proof.
  unfold cfnAsg_of. destruct (defaultChild_of w) as [[r'|name]|];
    intros [= ->]. reflexivity.
Qed.

Lemma cfnAsg_of_with_cfnAsg r w : cfnAsg_of (with_cfnAsg r w) = Some r.
Proof. reflexivity. Qed.

Section Runs.

Variable props : FckNatSpotInstanceAspectProps.t.

(** With a launch template at hand the conversion performs three writes
    and reaches the end of the method. *)
Lemma convertToSpotInstance_mutates w r lt :
  cfnAsg_of w = Some r →
  CfnAutoScalingGroup.launchTemplate r = Some lt →
  convertToSpotInstance props w =
    let p := policy_for props w lt in
    mkRun (Normal (mutated p)) (after_marker w r p)
      [after_deletion w r; after_install w r p; after_marker w r p].
Proof.
  intros Hr Hlt. apply cfnAsg_of_Some in Hr. destruct w as [[cls n] out].
  unfold defaultChild_of in Hr. simpl in Hr.
  unfold convertToSpotInstance, bind, gets, read_launchTemplate. simpl.
  rewrite Hr. simpl. rewrite Hlt. simpl.
  unfold update_cfnAsg, bind, gets, modify. simpl. rewrite Hr. simpl.
  reflexivity.
Qed.

(** Without one it prints a warning and returns at once. *)
Lemma convertToSpotInstance_skips w r :
  cfnAsg_of w = Some r →
  CfnAutoScalingGroup.launchTemplate r = None →
  convertToSpotInstance props w =
    mkRun (Normal (skipped no_launch_template_found))
      (with_warning (skip_message w) w)
      [with_warning (skip_message w) w].
Proof.
  intros Hr Hlt. apply cfnAsg_of_Some in Hr. destruct w as [[cls n] out].
  unfold defaultChild_of in Hr. simpl in Hr.
  unfold convertToSpotInstance, bind, gets, read_launchTemplate. simpl.
  rewrite Hr. simpl. rewrite Hlt. reflexivity.
Qed.

(** On a default child of another kind it finds no launch template
    either, and does the same. *)
Lemma convertToSpotInstance_skips_other w name :
  defaultChild_of w = Some (otherKind name) →
  convertToSpotInstance props w =
    mkRun (Normal (skipped no_launch_template_found))
      (with_warning (skip_message w) w)
      [with_warning (skip_message w) w].
Proof.
  intros Hr. destruct w as [[cls n] out].
  unfold defaultChild_of in Hr. simpl in Hr.
  unfold convertToSpotInstance, bind, gets, read_launchTemplate. simpl.
  rewrite Hr. reflexivity.
Qed.

(** Without a default child the first property read throws. *)
Lemma convertToSpotInstance_throws w :
  defaultChild_of w = None →
  convertToSpotInstance props w =
    mkRun
      (Throw (Js.TypeError
         "Cannot read properties of undefined (reading 'launchTemplate')"))
      w [].
Proof.
  intros Hr. destruct w as [[cls n] out].
  unfold defaultChild_of in Hr. simpl in Hr.
  unfold convertToSpotInstance, bind, gets, read_launchTemplate. simpl.
  rewrite Hr. reflexivity.
Qed.

(** The early return, in terms of the fragment. *)
Lemma convertToSpotInstance_skips_absent w :
  is_Some (defaultChild_of w) →
  declared_launchTemplate w = None →
  convertToSpotInstance props w =
    mkRun (Normal (skipped no_launch_template_found))
      (with_warning (skip_message w) w)
      [with_warning (skip_message w) w].
Proof.
  intros [c Hc] Hlt. unfold declared_launchTemplate in Hlt.
  rewrite Hc in Hlt. destruct c as [r|name].
  - apply (convertToSpotInstance_skips w r); [|exact Hlt].
    unfold cfnAsg_of. rewrite Hc. reflexivity.
  - apply (convertToSpotInstance_skips_other w name Hc).
Qed.

(** [visit] on a construct that passes both tests. *)
Lemma visit_matched w :
  matched w →
  visit props w = (convertToSpotInstance props ;;; ret tt) w.
Proof.
  intros [Hc Hid]. unfold visit. rewrite bind_gets.
  unfold IConstruct.instanceof_AutoScalingGroup. rewrite Hc, Hid.
  reflexivity.
Qed.

(** [visit] on a construct that fails one of them. *)
Lemma visit_unmatched w :
  ¬ matched w →
  visit props w = mkRun (Normal tt) w [].
Proof.
  intros Hn. destruct w as [[cls n] out].
  unfold visit, bind, gets, IConstruct.instanceof_AutoScalingGroup. simpl.
  destruct cls as [|name]; [|reflexivity].
  destruct (String.eqb_spec (Node.id n) "FckNatAsg") as [Heq|Hne];
    [|reflexivity].
  exfalso. apply Hn. split; simpl; [reflexivity | exact Heq].
Qed.

End Runs.


(* ================================================================= *)
(** ** Rendering *)

(** Rendering works key by key. *)
Lemma renderProperties_lookup (r : CfnAutoScalingGroup.t) (k : string) :
  CfnAutoScalingGroup.renderProperties r !! k =
    CfnAutoScalingGroup.applyOverride
      (CfnAutoScalingGroup.rawOverrides r !! k)
      (CfnAutoScalingGroup.cfnProperties r !! k).
Proof.
  unfold CfnAutoScalingGroup.renderProperties. rewrite lookup_merge.
  destruct (CfnAutoScalingGroup.rawOverrides r !! k) as [o|];
    destruct (CfnAutoScalingGroup.cfnProperties r !! k); reflexivity.
Qed.

(** A property with a deletion override is not rendered, whatever the
    resource declares. *)
Lemma renderProperties_deleted (r : CfnAutoScalingGroup.t) (k : string) :
  CfnAutoScalingGroup.rawOverrides r !! k = Some Delete →
  CfnAutoScalingGroup.renderProperties r !! k = None.
Proof. intros H. rewrite renderProperties_lookup, H. reflexivity. Qed.


(** The deletion the aspect registers hides the launch template. *)
Lemma addPropertyDeletionOverride_hides (r : CfnAutoScalingGroup.t) k :
  CfnAutoScalingGroup.renderProperties
    (CfnAutoScalingGroup.addPropertyDeletionOverride k r) !! k = None.
Proof. apply renderProperties_deleted. simpl. apply lookup_insert_eq. Qed.

(** Installing a policy leaves the overrides alone. *)
Lemma set_mixedInstancesPolicy_hides (r : CfnAutoScalingGroup.t) p k :
  CfnAutoScalingGroup.rawOverrides r !! k = Some Delete →
  CfnAutoScalingGroup.renderProperties
    (CfnAutoScalingGroup.set_mixedInstancesPolicy p r) !! k = None.
Proof. intros H. apply renderProperties_deleted. exact H. Qed.

(** Neither the marker nor a warning touches the resource. *)
Lemma propertyBag_with_metadata type data w :
  propertyBag (with_metadata type data w) = propertyBag w.
Proof. reflexivity. Qed.

Lemma propertyBag_with_warning message w :
  propertyBag (with_warning message w) = propertyBag w.
Proof. reflexivity. Qed.

Lemma propertyBag_with_cfnAsg r w :
  propertyBag (with_cfnAsg r w) = CfnAutoScalingGroup.renderProperties r.
Proof. reflexivity. Qed.

(** From the first write of a conversion on, the launch template is out of
    the property bag. *)
Lemma after_deletion_no_template w r :
  propertyBag (after_deletion w r) !! "LaunchTemplate" = None.
Proof.
  unfold after_deletion. rewrite propertyBag_with_cfnAsg.
  apply addPropertyDeletionOverride_hides.
Qed.

Lemma after_install_no_template w r p :
  propertyBag (after_install w r p) !! "LaunchTemplate" = None.
Proof.
  unfold after_install. rewrite propertyBag_with_cfnAsg.
  apply set_mixedInstancesPolicy_hides. simpl. apply lookup_insert_eq.
Qed.

Lemma after_marker_no_template w r p :
  propertyBag (after_marker w r p) !! "LaunchTemplate" = None.
Proof.
  unfold after_marker. rewrite propertyBag_with_metadata.
  apply after_install_no_template.
Qed.

Section Visits.

Variable props : FckNatSpotInstanceAspectProps.t.

(** A visit of the fck-nat group that declares a launch template. *)
Lemma visit_mutates w r lt :
  matched w →
  cfnAsg_of w = Some r →
  CfnAutoScalingGroup.launchTemplate r = Some lt →
  visit props w =
    let p := policy_for props w lt in
    mkRun (Normal tt) (after_marker w r p)
      [after_deletion w r; after_install w r p; after_marker w r p].
Proof.
  intros Hm Hr Hlt. rewrite visit_matched by exact Hm.
  unfold bind. rewrite (convertToSpotInstance_mutates props w r lt Hr Hlt).
  reflexivity.
Qed.

(** A visit of the fck-nat group that declares none. *)
Lemma visit_skips w r :
  matched w →
  cfnAsg_of w = Some r →
  CfnAutoScalingGroup.launchTemplate r = None →
  visit props w =
    mkRun (Normal tt) (with_warning (skip_message w) w)
      [with_warning (skip_message w) w].
Proof.
  intros Hm Hr Hlt. rewrite visit_matched by exact Hm.
  unfold bind. rewrite (convertToSpotInstance_skips props w r Hr Hlt).
  reflexivity.
Qed.

(** A visit of the fck-nat group on whose default child no launch template
    is found. *)
Lemma visit_skips_absent w :
  matched w →
  is_Some (defaultChild_of w) →
  declared_launchTemplate w = None →
  visit props w =
    mkRun (Normal tt) (with_warning (skip_message w) w)
      [with_warning (skip_message w) w].
Proof.
  intros Hm Hc Hlt. rewrite visit_matched by exact Hm.
  unfold bind. rewrite (convertToSpotInstance_skips_absent props w Hc Hlt).
  reflexivity.
Qed.

(** A visit of the fck-nat group that has no default child. *)
Lemma visit_throws w :
  matched w →
  defaultChild_of w = None →
  visit props w =
    mkRun
      (Throw (Js.TypeError
         "Cannot read properties of undefined (reading 'launchTemplate')"))
      w [].
Proof.
  intros Hm Hr. rewrite (visit_matched props w Hm). unfold bind.
  rewrite (convertToSpotInstance_throws props w Hr). reflexivity.
Qed.

End Visits.

(** The four ways a visit can go: past an unmatched node, into the throw,
    into the early return, to the end of the conversion.  Each case
    rewrites the run of the visit to its explicit form. *)
Ltac visit_cases props w :=
  let Hm := fresh "Hm" in
  let c := fresh "c" in
  let Hc := fresh "Hc" in
  let r := fresh "r" in
  let Hr := fresh "Hr" in
  let lt := fresh "lt" in
  let Hlt := fresh "Hlt" in
  destruct (decide (matched w)) as [Hm|Hm];
  [ destruct (defaultChild_of w) as [c|] eqn:Hc;
    [ destruct (declared_launchTemplate w) as [lt|] eqn:Hlt;
      [ assert (Hr : ∃ r, cfnAsg_of w = Some r ∧
                          CfnAutoScalingGroup.launchTemplate r = Some lt)
          by (unfold declared_launchTemplate, cfnAsg_of in *;
              rewrite Hc in *; destruct c; [eauto | discriminate]);
        destruct Hr as (r & Hr & Hlt');
        rewrite ?(visit_mutates props w r lt Hm Hr Hlt')
      | rewrite ?(visit_skips_absent props w Hm (ex_intro _ c Hc) Hlt) ]
    | rewrite ?(visit_throws props w Hm Hc) ]
  | rewrite ?(visit_unmatched props w Hm) ].

(* ================================================================= *)
(** ** The launch template gives way to the policy *)




(* ================================================================= *)
(** ** The two shapes, rendered and declared *)

(** Every world a conversion leaves behind lacks the launch template. *)
Lemma visit_mutates_observable props w r lt w' :
  matched w →
  cfnAsg_of w = Some r →
  CfnAutoScalingGroup.launchTemplate r = Some lt →
  observable (visit props w) w' →
  propertyBag w' !! "LaunchTemplate" = None.
Proof.
  intros Hm Hr Hlt. rewrite (visit_mutates props w r lt Hm Hr Hlt). simpl.
  intros [Hin | ->]; [|apply after_marker_no_template].
  simpl in Hin. rewrite !elem_of_cons in Hin.
  destruct Hin as [-> | [-> | [-> | Hin]]].
  - apply after_deletion_no_template.
  - apply after_install_no_template.
  - apply after_marker_no_template.
  - inversion Hin.
Qed.

Lemma not_both_without_template w :
  propertyBag w !! "LaunchTemplate" = None → ¬ both_present w.
Proof. intros H [[x Hx] _]. rewrite H in Hx. discriminate. Qed.

(** C2 as stated fails: after the visit of the sample group the resource
    declares its launch template and the policy side by side, and a later
    pass of the aspect reads that launch template, since it converts
    again. *)
Lemma C2_counterexample :
  let w1 := final (visit FckNatSpotInstanceAspectProps.empty fcknat_world) in
  matched fcknat_world ∧
  declared_launchTemplate w1 = Some sample_launchTemplate ∧
  is_Some (installed_policy w1) ∧
  ∃ p, completion (convertToSpotInstance FckNatSpotInstanceAspectProps.empty w1)
       = Normal (mutated p).
Proof.
  split; [split; reflexivity|]. split; [reflexivity|].
  split; eexists; reflexivity.
Qed.

(** C2, as the code has it. The removal is a deletion override, registered
    first; the installation comes second, with no write in between. So in
    the rendered properties the two shapes never meet: if they are not both
    rendered before a visit, they are both rendered in none of the worlds
    the visit writes nor in the final one, and from the first write of a
    conversion on, [LaunchTemplate] is not rendered at all. On the resource
    itself they do meet: after every conversion it declares both its launch
    template and the policy. *)
Theorem C2_never_both_rendered_both_declared
    (props : FckNatSpotInstanceAspectProps.t) (w : World) :
  (¬ both_present w →
   ∀ w', observable (visit props w) w' → ¬ both_present w') ∧
  (converts w →
   (∀ w', observable (visit props w) w' →
          propertyBag w' !! "LaunchTemplate" = None) ∧
   is_Some (declared_launchTemplate (final (visit props w))) ∧
   is_Some (installed_policy (final (visit props w)))).
Proof.
  split.
  - intros Hw w' Hobs. revert Hobs. visit_cases props w.
    + intros Hobs. apply not_both_without_template.
      apply (visit_mutates_observable props w r lt w' Hm Hr Hlt').
      rewrite (visit_mutates props w r lt Hm Hr Hlt'). exact Hobs.
    + intros [Hin | ->]; [|exact Hw].
      simpl in Hin. apply list_elem_of_singleton in Hin. subst w'. exact Hw.
    + intros [Hin | ->]; [inversion Hin | exact Hw].
    + intros [Hin | ->]; [inversion Hin | exact Hw].
  - intros [Hm (r & lt & Hr & Hlt)]. split.
    + intros w'. apply (visit_mutates_observable props w r lt w' Hm Hr Hlt).
    + rewrite (visit_mutates props w r lt Hm Hr Hlt). simpl.
      split; [exists lt; exact Hlt | eexists; reflexivity].
Qed.

Lemma C2_witness :
  let w1 := final (visit FckNatSpotInstanceAspectProps.empty fcknat_world) in
  ¬ both_present w1 ∧
  propertyBag w1 !! "LaunchTemplate" = None ∧
  is_Some (declared_launchTemplate w1) ∧
  is_Some (installed_policy w1).
Proof.
  destruct (C2_never_both_rendered_both_declared
              FckNatSpotInstanceAspectProps.empty fcknat_world)
    as [Hinv Hconv].
  assert (Hc : converts fcknat_world).
  { split; [split; reflexivity|].
    exists sample_cfnAsg, sample_launchTemplate. split; reflexivity. }
  destruct (Hconv Hc) as (Hno & Hd & Hp).
  split.
  - apply (Hinv ltac:(intros [_ [x Hx]]; vm_compute in Hx; discriminate)).
    right. reflexivity.
  - split; [apply Hno; right; reflexivity|]. split; [exact Hd | exact Hp].
Defined.

(* ================================================================= *)
(** ** A second pass *)

(** The world a conversion leaves is again one that converts: the resource
    still declares its launch template. *)
Lemma after_marker_cfnAsg w r p :
  cfnAsg_of (after_marker w r p) =
    Some (CfnAutoScalingGroup.set_mixedInstancesPolicy p
            (CfnAutoScalingGroup.addPropertyDeletionOverride
               "LaunchTemplate" r)).
Proof. reflexivity. Qed.

Lemma after_marker_matched w r p : matched w → matched (after_marker w r p).
Proof. intros H. exact H. Qed.

Lemma policy_for_after_marker props w r p lt :
  policy_for props (after_marker w r p) lt = policy_for props w lt.
Proof. reflexivity. Qed.

(** A deletion override does not clear the declared field: after a
    conversion the resource still declares the launch template it had. *)
Lemma after_marker_keeps_declared_template w r p :
  CfnAutoScalingGroup.launchTemplate
    <$> cfnAsg_of (after_marker w r p)
  = Some (CfnAutoScalingGroup.launchTemplate r).
Proof. reflexivity. Qed.

(** Registering the same deletion twice is registering it once. *)
Lemma addPropertyDeletionOverride_twice k p r :
  CfnAutoScalingGroup.set_mixedInstancesPolicy p
    (CfnAutoScalingGroup.addPropertyDeletionOverride k
       (CfnAutoScalingGroup.set_mixedInstancesPolicy p
          (CfnAutoScalingGroup.addPropertyDeletionOverride k r)))
  = CfnAutoScalingGroup.set_mixedInstancesPolicy p
      (CfnAutoScalingGroup.addPropertyDeletionOverride k r).
Proof.
  unfold CfnAutoScalingGroup.set_mixedInstancesPolicy,
    CfnAutoScalingGroup.addPropertyDeletionOverride. simpl.
  f_equal. apply insert_insert_eq.
Qed.

(** C3, as the code has it. A second visit of a node the first visit
    converted does not skip: the resource still declares its launch
    template, so the conversion runs again. It completes normally and
    prints nothing, builds the same policy, and leaves the resource (its
    declared properties, its overrides, hence its rendered property bag) as
    the first visit left it; the only growth is one more
    [fck-nat:spot-enabled] metadata entry. *)
Theorem C3_second_visit_converts_again
    (props : FckNatSpotInstanceAspectProps.t) (w : World)
    (r : CfnAutoScalingGroup.t) (lt : LaunchTemplateSpecificationProperty.t) :
  matched w →
  cfnAsg_of w = Some r →
  CfnAutoScalingGroup.launchTemplate r = Some lt →
  let w1 := final (visit props w) in
  let w2 := final (visit props w1) in
  completion (visit props w1) = Normal tt ∧
  completion (convertToSpotInstance props w1)
    = Normal (mutated (policy_for props w lt)) ∧
  cfnAsg_of w2 = cfnAsg_of w1 ∧
  propertyBag w2 = propertyBag w1 ∧
  console w2 = console w1 ∧
  Node.metadata (IConstruct.node (construct w2))
    = (Node.metadata (IConstruct.node (construct w1)) ++ [spot_marker])%list.
Proof.
  intros Hm Hr Hlt w1 w2.
  set (p := policy_for props w lt).
  set (r1 := CfnAutoScalingGroup.set_mixedInstancesPolicy p
               (CfnAutoScalingGroup.addPropertyDeletionOverride
                  "LaunchTemplate" r)).
  assert (E1 : w1 = after_marker w r p).
  { unfold w1. rewrite (visit_mutates props w r lt Hm Hr Hlt). reflexivity. }
  assert (Hm1 : matched w1) by (rewrite E1; exact Hm).
  assert (Hr1 : cfnAsg_of w1 = Some r1) by (rewrite E1; reflexivity).
  assert (Hlt1 : CfnAutoScalingGroup.launchTemplate r1 = Some lt)
    by exact Hlt.
  assert (Hp : policy_for props w1 lt = p)
    by (rewrite E1; apply policy_for_after_marker).
  assert (E2 : w2 = after_marker w1 r1 p).
  { unfold w2. rewrite (visit_mutates props w1 r1 lt Hm1 Hr1 Hlt1).
    simpl. rewrite Hp. reflexivity. }
  assert (Hcfn : cfnAsg_of w2 = cfnAsg_of w1).
  { rewrite E2, after_marker_cfnAsg, Hr1. f_equal. unfold r1.
    apply addPropertyDeletionOverride_twice. }
  split.
  { rewrite (visit_mutates props w1 r1 lt Hm1 Hr1 Hlt1). reflexivity. }
  split.
  { rewrite (convertToSpotInstance_mutates props w1 r1 lt Hr1 Hlt1).
    simpl. rewrite Hp. reflexivity. }
  split; [exact Hcfn|].
  split; [unfold propertyBag; rewrite Hcfn; reflexivity|].
  rewrite E2. split; reflexivity.
Qed.

Lemma C3_witness :
  let props := FckNatSpotInstanceAspectProps.empty in
  let w1 := final (visit props fcknat_world) in
  let w2 := final (visit props w1) in
  completion (visit props w1) = Normal tt ∧
  completion (convertToSpotInstance props w1)
    = Normal (mutated (policy_for props fcknat_world sample_launchTemplate)) ∧
  cfnAsg_of w2 = cfnAsg_of w1 ∧
  propertyBag w2 = propertyBag w1 ∧
  console w2 = console w1 ∧
  Node.metadata (IConstruct.node (construct w2))
    = (Node.metadata (IConstruct.node (construct w1)) ++ [spot_marker])%list.
Proof.
  apply (C3_second_visit_converts_again
           FckNatSpotInstanceAspectProps.empty fcknat_world
           sample_cfnAsg sample_launchTemplate).
  - split; reflexivity.
  - reflexivity.
  - reflexivity.
Defined.

(** C3 as stated fails. On the sample fck-nat group the first pass
    converts; the second pass, far from skipping, converts again and leaves
    two markers where the first left one. *)
Lemma C3_counterexample :
  let props := FckNatSpotInstanceAspectProps.empty in
  let first := convertToSpotInstance props fcknat_world in
  let second := convertToSpotInstance props (final first) in
  (∃ p, completion first = Normal (mutated p)) ∧
  completion second ≠ Normal (skipped no_launch_template_found) ∧
  Node.metadata (IConstruct.node (construct (final first)))
    = [spot_marker] ∧
  Node.metadata (IConstruct.node (construct (final second)))
    = [spot_marker; spot_marker].
Proof.
  split; [eexists; reflexivity|].
  split; [discriminate|].
  split; reflexivity.
Qed.

(* ================================================================= *)
(** ** Which nodes are rewritten *)

(** A conversion never passes unnoticed: it writes, or it throws. *)
Lemma convertToSpotInstance_leaves_a_trace props w :
  (convertToSpotInstance props ;;; ret tt) w ≠ mkRun (Normal tt) w [].
Proof.
  unfold bind.
  destruct (defaultChild_of w) as [c|] eqn:Hc.
  - destruct (declared_launchTemplate w) as [lt|] eqn:Hlt.
    + assert (Hr : ∃ r, cfnAsg_of w = Some r ∧
                        CfnAutoScalingGroup.launchTemplate r = Some lt).
      { unfold declared_launchTemplate, cfnAsg_of in *. rewrite Hc in *.
        destruct c; [eauto | discriminate]. }
      destruct Hr as (r & Hr & Hlt').
      rewrite (convertToSpotInstance_mutates props w r lt Hr Hlt').
      simpl. intros H. inversion H.
    + rewrite (convertToSpotInstance_skips_absent props w
                 (ex_intro _ c Hc) Hlt).
      simpl. intros H. inversion H.
  - rewrite (convertToSpotInstance_throws props w Hc).
    simpl. intros H. inversion H.
Qed.

(** C4. [visit] hands the node to [convertToSpotInstance] exactly when the
    node is an [AutoScalingGroup] and its id is ['FckNatAsg']: on such a
    node the visit is the conversion, on every other node (right id under
    another class, or an auto scaling group under another id) it is the
    run that does nothing; and since a conversion always leaves a trace,
    the two cannot be confused. *)
Theorem C4_visit_delegates_iff_matched
    (props : FckNatSpotInstanceAspectProps.t) (w : World) :
  (IConstruct.class (construct w) = AutoScalingGroup ∧
   Node.id (IConstruct.node (construct w)) = "FckNatAsg"
   ↔ visit props w ≠ mkRun (Normal tt) w []) ∧
  (IConstruct.class (construct w) = AutoScalingGroup ∧
   Node.id (IConstruct.node (construct w)) = "FckNatAsg"
   → visit props w = (convertToSpotInstance props ;;; ret tt) w) ∧
  (IConstruct.class (construct w) ≠ AutoScalingGroup ∨
   Node.id (IConstruct.node (construct w)) ≠ "FckNatAsg"
   → visit props w = mkRun (Normal tt) w []).
Proof.
  fold (matched w). split; [split|split].
  - intros Hm. rewrite (visit_matched props w Hm).
    apply convertToSpotInstance_leaves_a_trace.
  - intros Hne. destruct (decide (matched w)) as [Hm|Hm]; [exact Hm|].
    exfalso. apply Hne. apply visit_unmatched. exact Hm.
  - apply visit_matched.
  - intros Hor. apply visit_unmatched. intros [Hc Hid].
    destruct Hor as [H|H]; [exact (H Hc) | exact (H Hid)].
Qed.

(** The two near misses of C4, run. *)
Example visit_other_asg :
  visit FckNatSpotInstanceAspectProps.empty other_asg_world
    = mkRun (Normal tt) other_asg_world [].
Proof. reflexivity. Qed.

Example visit_other_class :
  visit FckNatSpotInstanceAspectProps.empty other_class_world
    = mkRun (Normal tt) other_class_world [].
Proof. reflexivity. Qed.

(** C10. A node that fails the test (another id, or the sentinel id under
    another class) is not written to at all: the visit completes normally,
    performs no write, and leaves the very world it found, so the resource
    and its property bag are the ones it started with. *)
Theorem C10_unmatched_node_untouched
    (props : FckNatSpotInstanceAspectProps.t) (w : World) :
  Node.id (IConstruct.node (construct w)) ≠ "FckNatAsg" ∨
  IConstruct.class (construct w) ≠ AutoScalingGroup →
  completion (visit props w) = Normal tt ∧
  writes (visit props w) = [] ∧
  final (visit props w) = w ∧
  cfnAsg_of (final (visit props w)) = cfnAsg_of w ∧
  propertyBag (final (visit props w)) = propertyBag w.
Proof.
  intros Hor.
  assert (Hn : ¬ matched w).
  { intros [Hc Hid]. destruct Hor as [H|H]; [exact (H Hid) | exact (H Hc)]. }
  rewrite (visit_unmatched props w Hn). simpl. repeat split.
Qed.

Lemma C10_witness :
  completion (visit FckNatSpotInstanceAspectProps.empty other_class_world)
    = Normal tt ∧
  writes (visit FckNatSpotInstanceAspectProps.empty other_class_world) = [] ∧
  final (visit FckNatSpotInstanceAspectProps.empty other_class_world)
    = other_class_world ∧
  cfnAsg_of
    (final (visit FckNatSpotInstanceAspectProps.empty other_class_world))
    = cfnAsg_of other_class_world ∧
  propertyBag
    (final (visit FckNatSpotInstanceAspectProps.empty other_class_world))
    = propertyBag other_class_world.
Proof.
  apply (C10_unmatched_node_untouched
           FckNatSpotInstanceAspectProps.empty other_class_world).
  right. simpl. discriminate.
Defined.

(* ================================================================= *)
(** ** The skip *)

(** C5 as stated fails: on the sample group without a default child the
    fragment is absent, declared or rendered, yet the rewrite does not
    skip: it throws, and prints no warning. *)
Lemma C5_counterexample :
  matched fcknat_world_no_child ∧
  declared_launchTemplate fcknat_world_no_child = None ∧
  propertyBag fcknat_world_no_child !! "LaunchTemplate" = None ∧
  completion
    (convertToSpotInstance FckNatSpotInstanceAspectProps.empty
       fcknat_world_no_child)
    ≠ Normal (skipped no_launch_template_found) ∧
  console
    (final (visit FckNatSpotInstanceAspectProps.empty fcknat_world_no_child))
    = [].
Proof.
  split; [split; reflexivity|]. split; [reflexivity|].
  split; [reflexivity|]. split; [discriminate | reflexivity].
Qed.

(** C5, as the code has it. For a matched node whose default child is
    there and on which no launch template is found (the resource declares
    none, or the default child is a construct of another kind), the
    conversion takes the early return: the outcome is
    [skipped no_launch_template_found], its one and only write is a line on
    the console at level [warn], and the construct, hence its resource and
    property bag, is as it was. *)
Theorem C5_skip_when_no_template_on_default_child
    (props : FckNatSpotInstanceAspectProps.t) (w : World) :
  matched w →
  is_Some (defaultChild_of w) →
  declared_launchTemplate w = None →
  completion (convertToSpotInstance props w)
    = Normal (skipped no_launch_template_found) ∧
  completion (visit props w) = Normal tt ∧
  writes (visit props w) = [final (visit props w)] ∧
  console (final (visit props w))
    = (console w ++ [(LevelWarn, skip_message w)])%list ∧
  construct (final (visit props w)) = construct w ∧
  propertyBag (final (visit props w)) = propertyBag w.
Proof.
  intros Hm Hc Hlt.
  rewrite (convertToSpotInstance_skips_absent props w Hc Hlt).
  rewrite (visit_skips_absent props w Hm Hc Hlt). simpl. repeat split.
Qed.

Lemma C5_witness :
  let props := FckNatSpotInstanceAspectProps.empty in
  let w := fcknat_world_no_template in
  completion (convertToSpotInstance props w)
    = Normal (skipped no_launch_template_found) ∧
  completion (visit props w) = Normal tt ∧
  writes (visit props w) = [final (visit props w)] ∧
  console (final (visit props w))
    = (console w ++ [(LevelWarn, skip_message w)])%list ∧
  construct (final (visit props w)) = construct w ∧
  propertyBag (final (visit props w)) = propertyBag w.
Proof.
  apply (C5_skip_when_no_template_on_default_child
           FckNatSpotInstanceAspectProps.empty fcknat_world_no_template).
  - split; reflexivity.
  - eexists. reflexivity.
  - reflexivity.
Defined.

(** The same on a default child of another kind. *)
Example skip_on_other_child :
  visit FckNatSpotInstanceAspectProps.empty fcknat_world_other_child
  = mkRun (Normal tt)
      (with_warning (skip_message fcknat_world_other_child)
         fcknat_world_other_child)
      [with_warning (skip_message fcknat_world_other_child)
         fcknat_world_other_child].
Proof. reflexivity. Qed.

(** The line printed for the sample group. *)
Example skip_message_sample :
  console
    (final (visit FckNatSpotInstanceAspectProps.empty
              fcknat_world_no_template))
  = [(LevelWarn,
      "FckNatSpotInstanceAspect: Could not find launch template for ASG Stack/VPC/PublicSubnet1/FckNatAsg")].
Proof. reflexivity. Qed.

(* ================================================================= *)
(** ** Errors *)

(** C6 as stated fails: the sample group without a default child matches,
    and visiting it throws on the first property read. *)
Lemma C6_counterexample :
  matched fcknat_world_no_child ∧
  defaultChild_of fcknat_world_no_child = None ∧
  completion (visit FckNatSpotInstanceAspectProps.empty fcknat_world_no_child)
    = Throw (Js.TypeError
        "Cannot read properties of undefined (reading 'launchTemplate')").
Proof. split; [split; reflexivity|]. split; reflexivity. Qed.

(** C6, as the code has it. When the default child of the node is there,
    be it the resource of the group or a construct of another kind, a
    visit completes normally for every parent the model can write (none,
    one without an [instanceType], one with [undefined] or [null] there,
    one with a value that has a string form), and the conversion ends in
    one of its two outcomes: skipped exactly when no launch template is
    found on the default child, mutated otherwise. *)
Theorem C6_no_throw_with_default_child
    (props : FckNatSpotInstanceAspectProps.t) (w : World) :
  is_Some (defaultChild_of w) →
  completion (visit props w) = Normal tt ∧
  ∃ o,
    completion (convertToSpotInstance props w) = Normal o ∧
    (o = skipped no_launch_template_found
     ↔ declared_launchTemplate w = None) ∧
    ((∃ p, o = mutated p)
     ↔ is_Some (declared_launchTemplate w)).
Proof.
  intros Hc. split.
  - visit_cases props w; try reflexivity.
    destruct Hc as [c' Hc']. discriminate.
  - destruct (declared_launchTemplate w) as [lt|] eqn:Hlt.
    + assert (Hr : ∃ r, cfnAsg_of w = Some r ∧
                        CfnAutoScalingGroup.launchTemplate r = Some lt).
      { destruct Hc as [c Hc].
        unfold declared_launchTemplate, cfnAsg_of in *. rewrite Hc in *.
        destruct c; [eauto | discriminate]. }
      destruct Hr as (r & Hr & Hlt').
      rewrite (convertToSpotInstance_mutates props w r lt Hr Hlt'). simpl.
      eexists. split; [reflexivity|]. split; split.
      * discriminate.
      * discriminate.
      * intros _. eexists. reflexivity.
      * intros _. eexists. reflexivity.
    + rewrite (convertToSpotInstance_skips_absent props w Hc Hlt). simpl.
      eexists. split; [reflexivity|]. split; split.
      * reflexivity.
      * reflexivity.
      * intros [p Hp]. discriminate.
      * intros [x Hx]. discriminate.
Qed.

Lemma C6_witness :
  completion (visit FckNatSpotInstanceAspectProps.empty
                fcknat_world_other_child) = Normal tt ∧
  ∃ o,
    completion (convertToSpotInstance FckNatSpotInstanceAspectProps.empty
                  fcknat_world_other_child) = Normal o ∧
    (o = skipped no_launch_template_found
     ↔ declared_launchTemplate fcknat_world_other_child = None) ∧
    ((∃ p, o = mutated p)
     ↔ is_Some (declared_launchTemplate fcknat_world_other_child)).
Proof.
  apply (C6_no_throw_with_default_child
           FckNatSpotInstanceAspectProps.empty fcknat_world_other_child).
  eexists. reflexivity.
Defined.

(** The same theorem at the sample group under a plain parent, where the
    conversion goes through. *)
Example no_throw_plain_parent :
  completion (visit FckNatSpotInstanceAspectProps.empty
                fcknat_world_plain_parent) = Normal tt.
Proof. reflexivity. Qed.

(* ================================================================= *)
(** ** The policy that is installed *)

(** What a conversion installs is what it built. *)
Lemma convertToSpotInstance_installs props w r lt :
  cfnAsg_of w = Some r →
  CfnAutoScalingGroup.launchTemplate r = Some lt →
  completion (convertToSpotInstance props w)
    = Normal (mutated (policy_for props w lt)) ∧
  installed_policy (final (convertToSpotInstance props w))
    = Some (policy_for props w lt).
Proof.
  intros Hr Hlt.
  rewrite (convertToSpotInstance_mutates props w r lt Hr Hlt).
  split; reflexivity.
Qed.

Lemma truthy_nonempty s : s ≠ "" → Js.truthy s = true.
Proof. destruct s; [congruence | reflexivity]. Qed.

(** C7 as stated fails: a maximum price that is supplied as the empty
    string does not reach the policy. *)
Lemma C7_counterexample :
  FckNatSpotInstanceAspectProps.spotMaxPrice (props_with_price "")
    = Some "" ∧
  ∃ p,
    completion (convertToSpotInstance (props_with_price "") fcknat_world)
      = Normal (mutated p) ∧
    policy_spotMaxPrice p = None ∧
    policy_spotMaxPrice p ≠ Some "".
Proof.
  split; [reflexivity|]. eexists. split; [reflexivity|].
  split; [reflexivity | discriminate].
Qed.

(** C7, as the code has it. The policy a conversion installs has no
    maximum price when [spotMaxPrice] is omitted or is the empty string,
    and has the supplied string, verbatim, when it is any other string. *)
Theorem C7_max_price_when_truthy
    (props : FckNatSpotInstanceAspectProps.t) (w : World)
    (r : CfnAutoScalingGroup.t) (lt : LaunchTemplateSpecificationProperty.t) :
  cfnAsg_of w = Some r →
  CfnAutoScalingGroup.launchTemplate r = Some lt →
  ∃ p,
    completion (convertToSpotInstance props w) = Normal (mutated p) ∧
    installed_policy (final (convertToSpotInstance props w)) = Some p ∧
    (FckNatSpotInstanceAspectProps.spotMaxPrice props = None →
     policy_spotMaxPrice p = None) ∧
    (FckNatSpotInstanceAspectProps.spotMaxPrice props = Some "" →
     policy_spotMaxPrice p = None) ∧
    (∀ s, FckNatSpotInstanceAspectProps.spotMaxPrice props = Some s →
          s ≠ "" → policy_spotMaxPrice p = Some s).
Proof.
  intros Hr Hlt.
  destruct (convertToSpotInstance_installs props w r lt Hr Hlt) as [Hc Hi].
  exists (policy_for props w lt). split; [exact Hc|]. split; [exact Hi|].
  unfold policy_spotMaxPrice, policy_for, build_mixedInstancesPolicy. simpl.
  split; [|split].
  - intros ->. reflexivity.
  - intros ->. reflexivity.
  - intros s -> Hs. simpl. rewrite (truthy_nonempty s Hs). reflexivity.
Qed.

Lemma C7_witness :
  ∃ p,
    completion (convertToSpotInstance (props_with_price "0.004") fcknat_world)
      = Normal (mutated p) ∧
    installed_policy
      (final (convertToSpotInstance (props_with_price "0.004") fcknat_world))
      = Some p ∧
    (FckNatSpotInstanceAspectProps.spotMaxPrice (props_with_price "0.004")
       = None → policy_spotMaxPrice p = None) ∧
    (FckNatSpotInstanceAspectProps.spotMaxPrice (props_with_price "0.004")
       = Some "" → policy_spotMaxPrice p = None) ∧
    (∀ s, FckNatSpotInstanceAspectProps.spotMaxPrice
            (props_with_price "0.004") = Some s →
          s ≠ "" → policy_spotMaxPrice p = Some s).
Proof.
  apply (C7_max_price_when_truthy (props_with_price "0.004") fcknat_world
           sample_cfnAsg sample_launchTemplate).
  - reflexivity.
  - reflexivity.
Defined.

(** The sample price reaches the sample policy. *)
Example max_price_sample :
  policy_spotMaxPrice
    (policy_for (props_with_price "0.004") fcknat_world sample_launchTemplate)
  = Some "0.004".
Proof. reflexivity. Qed.

(** C8 as stated fails: under a parent whose instance type prints as the
    empty string the policy has no overrides at all, where the claim wants
    one entry with that value. *)
Lemma C8_counterexample :
  parent_of fcknat_world_empty_type
    = Some (Scope.mk (Some (Js.stringifiable ""))) ∧
  ∃ p,
    completion
      (convertToSpotInstance FckNatSpotInstanceAspectProps.empty
         fcknat_world_empty_type) = Normal (mutated p) ∧
    policy_overrides p = None ∧
    policy_overrides p ≠ Some [LaunchTemplateOverridesProperty.mk (Some "")].
Proof.
  split; [reflexivity|]. eexists. split; [reflexivity|].
  split; [reflexivity | discriminate].
Qed.

(** C8, as the code has it. When the parent has an [instanceType] whose
    string form is not empty, the policy a conversion installs has exactly
    one override, with that string as its instance type. When there is no
    parent, or the parent has no [instanceType], or holds [undefined] or
    [null] there, or a value whose string form is empty, the policy has no
    overrides, and the conversion completes normally all the same. *)
Theorem C8_overrides_from_parent
    (props : FckNatSpotInstanceAspectProps.t) (w : World)
    (r : CfnAutoScalingGroup.t) (lt : LaunchTemplateSpecificationProperty.t) :
  cfnAsg_of w = Some r →
  CfnAutoScalingGroup.launchTemplate r = Some lt →
  ∃ p,
    completion (convertToSpotInstance props w) = Normal (mutated p) ∧
    installed_policy (final (convertToSpotInstance props w)) = Some p ∧
    (∀ parent s,
       parent_of w = Some parent →
       Scope.instanceType_slot parent = Some (Js.stringifiable s) →
       s ≠ "" →
       policy_overrides p
         = Some [LaunchTemplateOverridesProperty.mk (Some s)]) ∧
    (parent_of w = None → policy_overrides p = None) ∧
    (∀ parent,
       parent_of w = Some parent →
       Scope.instanceType_slot parent = None ∨
       Scope.instanceType_slot parent = Some Js.undefined ∨
       Scope.instanceType_slot parent = Some Js.null ∨
       Scope.instanceType_slot parent = Some (Js.stringifiable "") →
       policy_overrides p = None).
Proof.
  intros Hr Hlt.
  destruct (convertToSpotInstance_installs props w r lt Hr Hlt) as [Hc Hi].
  exists (policy_for props w lt). split; [exact Hc|]. split; [exact Hi|].
  unfold policy_overrides, policy_for, build_mixedInstancesPolicy,
    getInstanceTypeFromAsg, parent_of. simpl.
  split; [|split].
  - intros parent s -> -> Hs. simpl.
    rewrite (truthy_nonempty s Hs). reflexivity.
  - intros ->. reflexivity.
  - intros parent -> [-> | [-> | [-> | ->]]]; reflexivity.
Qed.

Lemma C8_witness :
  ∃ p,
    completion
      (convertToSpotInstance FckNatSpotInstanceAspectProps.empty fcknat_world)
      = Normal (mutated p) ∧
    installed_policy
      (final (convertToSpotInstance FckNatSpotInstanceAspectProps.empty
                fcknat_world)) = Some p ∧
    policy_overrides p
      = Some [LaunchTemplateOverridesProperty.mk (Some "t4g.nano")].
Proof.
  destruct (C8_overrides_from_parent
              FckNatSpotInstanceAspectProps.empty fcknat_world
              sample_cfnAsg sample_launchTemplate eq_refl eq_refl)
    as (p & Hc & Hi & Hone & _).
  exists p. split; [exact Hc|]. split; [exact Hi|].
  apply (Hone (Scope.mk (Some (Js.stringifiable "t4g.nano"))) "t4g.nano").
  - reflexivity.
  - reflexivity.
  - discriminate.
Defined.

(** C9. The policy a conversion installs asks for no on-demand capacity
    above the base: the percentage is 0. *)
Theorem C9_no_on_demand_above_base
    (props : FckNatSpotInstanceAspectProps.t) (w : World)
    (r : CfnAutoScalingGroup.t) (lt : LaunchTemplateSpecificationProperty.t) :
  cfnAsg_of w = Some r →
  CfnAutoScalingGroup.launchTemplate r = Some lt →
  ∃ p,
    completion (convertToSpotInstance props w) = Normal (mutated p) ∧
    installed_policy (final (convertToSpotInstance props w)) = Some p ∧
    policy_onDemandPercentage p = Some 0.
Proof.
  intros Hr Hlt.
  destruct (convertToSpotInstance_installs props w r lt Hr Hlt) as [Hc Hi].
  exists (policy_for props w lt). split; [exact Hc|]. split; [exact Hi|].
  reflexivity.
Qed.

Lemma C9_witness :
  ∃ p,
    completion
      (convertToSpotInstance FckNatSpotInstanceAspectProps.empty fcknat_world)
      = Normal (mutated p) ∧
    installed_policy
      (final (convertToSpotInstance FckNatSpotInstanceAspectProps.empty
                fcknat_world)) = Some p ∧
    policy_onDemandPercentage p = Some 0.
Proof.
  apply (C9_no_on_demand_above_base
           FckNatSpotInstanceAspectProps.empty fcknat_world
           sample_cfnAsg sample_launchTemplate).
  - reflexivity.
  - reflexivity.
Defined.

(* ================================================================= *)
(** ** Further properties of the aspect *)

(** The policy depends on the world through the parent only. *)
Lemma policy_for_parent props w w' lt :
  parent_of w = parent_of w' →
  policy_for props w lt = policy_for props w' lt.
Proof.
  unfold policy_for, getInstanceTypeFromAsg, parent_of. intros ->.
  reflexivity.
Qed.



(** A literal of the union type, and a string that is none of them. *)
Example allocation_strategy_literal :
  policy_spotAllocationStrategy
    (policy_for (props_with_strategy LowestPrice) fcknat_world
       sample_launchTemplate) = Some "lowest-price".
Proof. reflexivity. Qed.

Example allocation_strategy_unchecked :
  policy_spotAllocationStrategy
    (policy_for (FckNatSpotInstanceAspectProps.mk None (Some "bogus"))
       fcknat_world sample_launchTemplate) = Some "bogus".
Proof. reflexivity. Qed.

(** X2. The marker tells converted nodes apart. After a visit the metadata
    of the node is the metadata it had, followed by one
    [fck-nat:spot-enabled] entry when the visit converted the node, and
    nothing more when it did not (another node, a skip, or a throw). *)
Theorem X2_marker_iff_converted
    (props : FckNatSpotInstanceAspectProps.t) (w : World) :
  (converts w →
   metadata_of (final (visit props w))
     = (metadata_of w ++ [spot_marker])%list) ∧
  (¬ converts w →
   metadata_of (final (visit props w)) = metadata_of w).
Proof.
  split.
  - intros [Hm (r & lt & Hr & Hlt)].
    rewrite (visit_mutates props w r lt Hm Hr Hlt). reflexivity.
  - intros Hn. visit_cases props w; try reflexivity.
    exfalso. apply Hn. split; [exact Hm|]. exists r, lt. split; reflexivity || assumption.
Qed.

(** X3. A visit never touches what identifies the node: its class, id,
    path and scope are the same after the visit as before, however the
    visit went. *)
Theorem X3_identity_and_scope_kept
    (props : FckNatSpotInstanceAspectProps.t) (w : World) :
  let w' := final (visit props w) in
  IConstruct.class (construct w') = IConstruct.class (construct w) ∧
  Node.id (IConstruct.node (construct w'))
    = Node.id (IConstruct.node (construct w)) ∧
  Node.path (IConstruct.node (construct w'))
    = Node.path (IConstruct.node (construct w)) ∧
  parent_of w' = parent_of w.
Proof.
  visit_cases props w; simpl; repeat split.
Qed.

(** X4. A warning is the sign of a skip and of nothing else: a visit that
    skips adds one line at level [warn] to the console, and any other
    visit, a converting one included, leaves the console as it was. *)
Theorem X4_warning_iff_skipped
    (props : FckNatSpotInstanceAspectProps.t) (w : World) :
  (skips w →
   console (final (visit props w))
     = (console w ++ [(LevelWarn, skip_message w)])%list) ∧
  (¬ skips w → console (final (visit props w)) = console w).
Proof.
  split.
  - intros (Hm & Hc & Hlt).
    rewrite (visit_skips_absent props w Hm Hc Hlt). reflexivity.
  - intros Hn. visit_cases props w; try reflexivity.
    exfalso. apply Hn. split; [exact Hm|]. split; [|exact Hlt].
    unfold defaultChild_of in *. rewrite Hc. eexists. reflexivity.
Qed.

(** X5. The policy copies the id and the version of the launch template
    and nothing else: its specification never has a [launchTemplateName].
    So when the resource refers to its template by name only, the
    specification of the installed policy names no template at all. *)
Theorem X5_template_name_not_copied
    (props : FckNatSpotInstanceAspectProps.t) (w : World)
    (r : CfnAutoScalingGroup.t) (lt : LaunchTemplateSpecificationProperty.t) :
  cfnAsg_of w = Some r →
  CfnAutoScalingGroup.launchTemplate r = Some lt →
  ∃ p,
    completion (convertToSpotInstance props w) = Normal (mutated p) ∧
    installed_policy (final (convertToSpotInstance props w)) = Some p ∧
    LaunchTemplateSpecificationProperty.launchTemplateName
      (policy_specification p) = None ∧
    (LaunchTemplateSpecificationProperty.launchTemplateId lt = None →
     LaunchTemplateSpecificationProperty.launchTemplateId
       (policy_specification p) = None).
Proof.
  intros Hr Hlt.
  destruct (convertToSpotInstance_installs props w r lt Hr Hlt) as [Hc Hi].
  exists (policy_for props w lt). split; [exact Hc|]. split; [exact Hi|].
  split; [reflexivity|]. intros H. exact H.
Qed.

Lemma X5_witness :
  ∃ p,
    installed_policy
      (final (convertToSpotInstance FckNatSpotInstanceAspectProps.empty
                fcknat_world_busy)) = Some p ∧
    LaunchTemplateSpecificationProperty.launchTemplateName
      (policy_specification p) = None ∧
    LaunchTemplateSpecificationProperty.launchTemplateId
      (policy_specification p) = None.
Proof.
  destruct (X5_template_name_not_copied
              FckNatSpotInstanceAspectProps.empty fcknat_world_busy
              busy_cfnAsg named_launchTemplate eq_refl eq_refl)
    as (p & _ & Hi & Hname & Hid).
  exists p. split; [exact Hi|]. split; [exact Hname|].
  apply Hid. reflexivity.
Defined.

(** X7. The policy is assigned, not merged: whatever policy the resource
    declared before a conversion, the resource the conversion leaves is
    the same. *)
Theorem X7_previous_policy_overwritten
    (props : FckNatSpotInstanceAspectProps.t) (w : World)
    (r : CfnAutoScalingGroup.t) (lt : LaunchTemplateSpecificationProperty.t)
    (q : MixedInstancesPolicyProperty.t) :
  cfnAsg_of w = Some r →
  CfnAutoScalingGroup.launchTemplate r = Some lt →
  cfnAsg_of
    (final (convertToSpotInstance props
              (with_cfnAsg (CfnAutoScalingGroup.set_mixedInstancesPolicy q r)
                 w)))
  = cfnAsg_of (final (convertToSpotInstance props w)).
Proof.
  intros Hr Hlt.
  rewrite (convertToSpotInstance_mutates props w r lt Hr Hlt).
  rewrite (convertToSpotInstance_mutates props
             (with_cfnAsg (CfnAutoScalingGroup.set_mixedInstancesPolicy q r) w)
             (CfnAutoScalingGroup.set_mixedInstancesPolicy q r) lt
             eq_refl Hlt).
  reflexivity.
Qed.

Lemma X7_witness :
  cfnAsg_of
    (final (convertToSpotInstance FckNatSpotInstanceAspectProps.empty
              (with_cfnAsg
                 (CfnAutoScalingGroup.set_mixedInstancesPolicy
                    (MixedInstancesPolicyProperty.mk
                       (LaunchTemplateProperty.mk named_launchTemplate None)
                       None)
                    sample_cfnAsg)
                 fcknat_world)))
  = cfnAsg_of
      (final (convertToSpotInstance FckNatSpotInstanceAspectProps.empty
                fcknat_world)).
Proof.
  apply (X7_previous_policy_overwritten
           FckNatSpotInstanceAspectProps.empty fcknat_world
           sample_cfnAsg sample_launchTemplate).
  - reflexivity.
  - reflexivity.
Defined.

(** X8. A conversion registers one override and no other: the overrides of
    the resource afterwards are those it had with the deletion of
    [LaunchTemplate] put in (over any earlier override of that property),
    the declared launch template is left in its field, and every rendered
    property other than [LaunchTemplate] and [MixedInstancesPolicy] is the
    same as before. *)
Theorem X8_only_the_template_override_added
    (props : FckNatSpotInstanceAspectProps.t) (w : World)
    (r : CfnAutoScalingGroup.t) (lt : LaunchTemplateSpecificationProperty.t) :
  cfnAsg_of w = Some r →
  CfnAutoScalingGroup.launchTemplate r = Some lt →
  ∃ r',
    cfnAsg_of (final (convertToSpotInstance props w)) = Some r' ∧
    CfnAutoScalingGroup.rawOverrides r'
      = <["LaunchTemplate" := Delete]> (CfnAutoScalingGroup.rawOverrides r) ∧
    CfnAutoScalingGroup.launchTemplate r' = Some lt ∧
    ∀ k : string,
      k ≠ "LaunchTemplate" → k ≠ "MixedInstancesPolicy" →
      propertyBag (final (convertToSpotInstance props w)) !! k
        = propertyBag w !! k.
Proof.
  intros Hr Hlt.
  rewrite (convertToSpotInstance_mutates props w r lt Hr Hlt). simpl.
  eexists. split; [reflexivity|]. split; [reflexivity|].
  split; [exact Hlt|].
  intros k Hk1 Hk2. unfold after_marker.
  rewrite propertyBag_with_metadata. unfold after_install.
  rewrite propertyBag_with_cfnAsg. unfold propertyBag. rewrite Hr.
  rewrite !renderProperties_lookup. simpl.
  rewrite lookup_insert_ne by congruence. f_equal.
  unfold CfnAutoScalingGroup.cfnProperties. simpl. rewrite Hlt.
  rewrite lookup_insert_ne by congruence.
  destruct (CfnAutoScalingGroup.mixedInstancesPolicy r);
    [rewrite lookup_insert_ne by congruence|]; reflexivity.
Qed.

Lemma X8_witness :
  ∃ r',
    cfnAsg_of
      (final (convertToSpotInstance FckNatSpotInstanceAspectProps.empty
                fcknat_world_busy)) = Some r' ∧
    CfnAutoScalingGroup.rawOverrides r' !! "MaxSize" = Some (Assign "3") ∧
    propertyBag
      (final (convertToSpotInstance FckNatSpotInstanceAspectProps.empty
                fcknat_world_busy)) !! "MaxSize"
      = propertyBag fcknat_world_busy !! "MaxSize".
Proof.
  destruct (X8_only_the_template_override_added
              FckNatSpotInstanceAspectProps.empty fcknat_world_busy
              busy_cfnAsg named_launchTemplate eq_refl eq_refl)
    as (r' & Hr' & Ho & _ & Hk).
  exists r'. split; [exact Hr'|]. split.
  - rewrite Ho. vm_compute. reflexivity.
  - apply Hk; discriminate.
Defined.

(** X9. When the fck-nat group has no default child the visit throws
    before it writes anything: no warning, no override, no marker, and the
    world is the one the visit found. *)
Theorem X9_throw_leaves_no_trace
    (props : FckNatSpotInstanceAspectProps.t) (w : World) :
  matched w →
  defaultChild_of w = None →
  (∃ e, completion (visit props w) = Throw e) ∧
  writes (visit props w) = [] ∧
  final (visit props w) = w.
Proof.
  intros Hm Hr. rewrite (visit_throws props w Hm Hr). simpl.
  split; [eexists; reflexivity|]. split; reflexivity.
Qed.

Lemma X9_witness :
  (∃ e, completion (visit FckNatSpotInstanceAspectProps.empty
                      fcknat_world_no_child) = Throw e) ∧
  writes (visit FckNatSpotInstanceAspectProps.empty fcknat_world_no_child)
    = [] ∧
  final (visit FckNatSpotInstanceAspectProps.empty fcknat_world_no_child)
    = fcknat_world_no_child.
Proof.
  apply (X9_throw_leaves_no_trace
           FckNatSpotInstanceAspectProps.empty fcknat_world_no_child).
  - split; reflexivity.
  - reflexivity.
Defined.

(** What one converting visit leaves, for the next visit to find. *)
Lemma visit_converts_again props w r lt :
  matched w →
  cfnAsg_of w = Some r →
  CfnAutoScalingGroup.launchTemplate r = Some lt →
  let w1 := final (visit props w) in
  let r1 := CfnAutoScalingGroup.set_mixedInstancesPolicy
              (policy_for props w lt)
              (CfnAutoScalingGroup.addPropertyDeletionOverride
                 "LaunchTemplate" r) in
  matched w1 ∧
  cfnAsg_of w1 = Some r1 ∧
  CfnAutoScalingGroup.launchTemplate r1 = Some lt ∧
  parent_of w1 = parent_of w ∧
  console w1 = console w ∧
  metadata_of w1 = (metadata_of w ++ [spot_marker])%list.
Proof.
  intros Hm Hr Hlt. rewrite (visit_mutates props w r lt Hm Hr Hlt). simpl.
  split; [exact Hm|]. split; [reflexivity|]. split; [exact Hlt|].
  repeat split.
Qed.

(** The resource a conversion leaves does not remember an earlier
    conversion. *)
Lemma conversion_absorbs k p q r :
  CfnAutoScalingGroup.set_mixedInstancesPolicy p
    (CfnAutoScalingGroup.addPropertyDeletionOverride k
       (CfnAutoScalingGroup.set_mixedInstancesPolicy q
          (CfnAutoScalingGroup.addPropertyDeletionOverride k r)))
  = CfnAutoScalingGroup.set_mixedInstancesPolicy p
      (CfnAutoScalingGroup.addPropertyDeletionOverride k r).
Proof.
  unfold CfnAutoScalingGroup.set_mixedInstancesPolicy,
    CfnAutoScalingGroup.addPropertyDeletionOverride. simpl.
  f_equal. apply insert_insert_eq.
Qed.



(** After any number of visits the node is still one that converts. *)
Lemma visits_invariant props w r lt n :
  matched w →
  cfnAsg_of w = Some r →
  CfnAutoScalingGroup.launchTemplate r = Some lt →
  matched (visits props n w) ∧
  parent_of (visits props n w) = parent_of w ∧
  console (visits props n w) = console w ∧
  metadata_of (visits props n w)
    = (metadata_of w ++ replicate n spot_marker)%list ∧
  ∃ rn,
    cfnAsg_of (visits props n w) = Some rn ∧
    CfnAutoScalingGroup.launchTemplate rn = Some lt ∧
    (n ≠ 0%nat →
     rn = CfnAutoScalingGroup.set_mixedInstancesPolicy
            (policy_for props w lt)
            (CfnAutoScalingGroup.addPropertyDeletionOverride
               "LaunchTemplate" r)).
Proof.
  intros Hm Hr Hlt. induction n as [|n IH].
  - simpl. split; [exact Hm|]. split; [reflexivity|]. split; [reflexivity|].
    split; [rewrite app_nil_r; reflexivity|].
    exists r. split; [exact Hr|]. split; [exact Hlt|]. congruence.
  - destruct IH as (Hmn & Hpn & Hcn & Hmdn & rn & Hrn & Hltn & Hone).
    destruct (visit_converts_again props (visits props n w) rn lt
                Hmn Hrn Hltn)
      as (Hm' & Hr' & Hlt' & Hp' & Hc' & Hmd').
    change (visits props (S n) w)
      with (final (visit props (visits props n w))).
    split; [exact Hm'|]. split; [rewrite Hp'; exact Hpn|].
    split; [rewrite Hc'; exact Hcn|].
    split.
    { rewrite Hmd', Hmdn, <- app_assoc. f_equal.
      change (replicate (S n) spot_marker)
        with (spot_marker :: replicate n spot_marker).
      clear. induction n as [|n IH]; [reflexivity|].
      simpl. f_equal. exact IH. }
    eexists. split; [exact Hr'|]. split; [exact Hlt'|].
    intros _. rewrite (policy_for_parent props _ w lt Hpn).
    destruct n as [|n].
    + simpl in Hrn. rewrite Hr in Hrn. injection Hrn as <-. reflexivity.
    + rewrite Hone by discriminate. apply conversion_absorbs.
Qed.

(** X11. Applying the aspect [n] times, once or more, leaves the resource
    exactly as one application does; it prints nothing, and the node ends
    with [n] markers after the metadata it had. *)
Theorem X11_repeated_visits
    (props : FckNatSpotInstanceAspectProps.t) (w : World)
    (r : CfnAutoScalingGroup.t) (lt : LaunchTemplateSpecificationProperty.t)
    (n : nat) :
  matched w →
  cfnAsg_of w = Some r →
  CfnAutoScalingGroup.launchTemplate r = Some lt →
  cfnAsg_of (visits props (S n) w) = cfnAsg_of (visits props 1 w) ∧
  propertyBag (visits props (S n) w) = propertyBag (visits props 1 w) ∧
  console (visits props (S n) w) = console w ∧
  metadata_of (visits props (S n) w)
    = (metadata_of w ++ replicate (S n) spot_marker)%list.
Proof.
  intros Hm Hr Hlt.
  destruct (visits_invariant props w r lt (S n) Hm Hr Hlt)
    as (_ & _ & Hc & Hmd & rn & Hrn & _ & Hn).
  destruct (visits_invariant props w r lt 1 Hm Hr Hlt)
    as (_ & _ & _ & _ & r1 & Hr1 & _ & H1).
  assert (Heq : cfnAsg_of (visits props (S n) w)
                = cfnAsg_of (visits props 1 w)).
  { rewrite Hrn, Hr1, Hn, H1 by discriminate. reflexivity. }
  split; [exact Heq|].
  split; [unfold propertyBag; rewrite Heq; reflexivity|].
  split; [exact Hc | exact Hmd].
Qed.

Lemma X11_witness :
  cfnAsg_of (visits FckNatSpotInstanceAspectProps.empty 3 fcknat_world)
    = cfnAsg_of (visits FckNatSpotInstanceAspectProps.empty 1 fcknat_world) ∧
  propertyBag (visits FckNatSpotInstanceAspectProps.empty 3 fcknat_world)
    = propertyBag (visits FckNatSpotInstanceAspectProps.empty 1 fcknat_world) ∧
  console (visits FckNatSpotInstanceAspectProps.empty 3 fcknat_world)
    = console fcknat_world ∧
  metadata_of (visits FckNatSpotInstanceAspectProps.empty 3 fcknat_world)
    = (metadata_of fcknat_world ++ replicate 3 spot_marker)%list.
Proof.
  apply (X11_repeated_visits FckNatSpotInstanceAspectProps.empty
           fcknat_world sample_cfnAsg sample_launchTemplate 2).
  - split; reflexivity.
  - reflexivity.
  - reflexivity.
Defined.

(** X12. The truthiness tests keep empty values out of the policy: the
    installed policy never has the empty string as its maximum price, never
    has an empty list of overrides, and when it has overrides it has a
    single one, whose instance type is a non-empty string. *)
Theorem X12_no_empty_value_in_policy
    (props : FckNatSpotInstanceAspectProps.t) (w : World)
    (r : CfnAutoScalingGroup.t) (lt : LaunchTemplateSpecificationProperty.t) :
  cfnAsg_of w = Some r →
  CfnAutoScalingGroup.launchTemplate r = Some lt →
  ∃ p,
    completion (convertToSpotInstance props w) = Normal (mutated p) ∧
    installed_policy (final (convertToSpotInstance props w)) = Some p ∧
    policy_spotMaxPrice p ≠ Some "" ∧
    policy_overrides p ≠ Some [] ∧
    (∀ o, policy_overrides p = Some o →
          ∃ s, s ≠ "" ∧ o = [LaunchTemplateOverridesProperty.mk (Some s)]).
Proof.
  intros Hr Hlt.
  destruct (convertToSpotInstance_installs props w r lt Hr Hlt) as [Hc Hi].
  exists (policy_for props w lt). split; [exact Hc|]. split; [exact Hi|].
  unfold policy_spotMaxPrice, policy_overrides, policy_for,
    build_mixedInstancesPolicy. simpl.
  split; [|split].
  - destruct (FckNatSpotInstanceAspectProps.spotMaxPrice props) as [[|a s]|];
      simpl; discriminate.
  - destruct (getInstanceTypeFromAsg (construct w)) as [[|a s]|];
      simpl; discriminate.
  - intros o.
    destruct (getInstanceTypeFromAsg (construct w)) as [[|a s]|];
      simpl; try discriminate.
    intros [= <-]. exists (String a s). split; [discriminate | reflexivity].
Qed.

Lemma X12_witness :
  ∃ p,
    completion
      (convertToSpotInstance (props_with_price "") fcknat_world_empty_type)
      = Normal (mutated p) ∧
    policy_spotMaxPrice p ≠ Some "" ∧
    policy_overrides p ≠ Some [].
Proof.
  destruct (X12_no_empty_value_in_policy (props_with_price "")
              fcknat_world_empty_type sample_cfnAsg sample_launchTemplate
              eq_refl eq_refl)
    as (p & Hc & _ & Hprice & Hov & _).
  exists p. split; [exact Hc|]. split; [exact Hprice | exact Hov].
Defined.

(** X14. The props are read on the converting path only: on a node that a
    visit does not convert (another node, a skip, a throw) the visit is the
    same run whatever the props. *)
Theorem X14_props_only_matter_when_converting
    (props1 props2 : FckNatSpotInstanceAspectProps.t) (w : World) :
  ¬ converts w →
  visit props1 w = visit props2 w.
Proof.
  intros Hn.
  destruct (decide (matched w)) as [Hm|Hm].
  - destruct (defaultChild_of w) as [c|] eqn:Hc.
    + destruct (declared_launchTemplate w) as [lt|] eqn:Hlt.
      * exfalso. apply Hn. split; [exact Hm|].
        unfold declared_launchTemplate, cfnAsg_of in *. rewrite Hc in *.
        destruct c as [r|name]; [|discriminate].
        exists r, lt. split; [reflexivity | exact Hlt].
      * rewrite (visit_skips_absent props1 w Hm (ex_intro _ c Hc) Hlt).
        rewrite (visit_skips_absent props2 w Hm (ex_intro _ c Hc) Hlt).
        reflexivity.
    + rewrite (visit_throws props1 w Hm Hc).
      rewrite (visit_throws props2 w Hm Hc). reflexivity.
  - rewrite (visit_unmatched props1 w Hm).
    rewrite (visit_unmatched props2 w Hm). reflexivity.
Qed.

Lemma X14_witness :
  visit (props_with_price "0.004") fcknat_world_no_template
    = visit (props_with_strategy LowestPrice) fcknat_world_no_template.
Proof.
  apply (X14_props_only_matter_when_converting
           (props_with_price "0.004") (props_with_strategy LowestPrice)
           fcknat_world_no_template).
  intros [_ (r & lt & Hr & Hlt)].
  vm_compute in Hr. injection Hr as <-. discriminate Hlt.
Defined.
